(** * World Cup dashboard: data preparation and query callbacks

    A shallow embedding of [functions.py]: the clean-up of the finals table
    (lines 14-24), the win totals (lines 37-38), the left join on the ISO
    table (lines 45-46), the colour range of the map (line 56) and the two
    callbacks [display_win_count] and [show_final_result] (lines 156-180),
    followed by the properties the specification states about them and by
    further properties of the code.

    A DataFrame is a list of rows in index order.  A text cell is
    [option string], [None] standing for pandas' NaN (an empty cell of the
    scraped table).  A Python exception is a [Raise] result. *)

From Stdlib Require Import List String Ascii ZArith Lia Bool Arith.
From Stdlib Require Import Permutation Sorted Orders Mergesort.
From Stdlib Require Import Decimal DecimalString.
Import ListNotations.

Open Scope string_scope.

(** ** Python values *)

Inductive exn : Type :=
| IndexError.

Inductive result (A : Type) : Type :=
| Ok (a : A)
| Raise (e : exn).

Arguments Ok {A} a.
Arguments Raise {A} e.

(** A text cell of a DataFrame; [None] is NaN. *)
Definition cell : Type := option string.

Definition cell_dec (a b : cell) : {a = b} + {a <> b}.
Proof. decide equality. apply string_dec. Defined.

Arguments cell_dec : simpl never.

(** [str(n)] for a Python int. *)
Definition str_of_int (z : Z) : string :=
  NilZero.string_of_int (Z.to_int z).

(** How an f-string renders a text cell: NaN prints as [nan]. *)
Definition str_of_cell (c : cell) : string :=
  match c with
  | Some s => s
  | None => "nan"
  end.

(** [seq[0]] on a Python sequence or [.values[0]] / [.iloc[0]] on a
    selection: the first element, [IndexError] when there is none. *)
Definition item0 {A : Type} (l : list A) : result A :=
  match l with
  | x :: _ => Ok x
  | [] => Raise IndexError
  end.

(** ** Rows of the tables *)

(** A row of [tables[3]], the scraped finals table.  [others] are the
    columns line 20 discards, by column name. *)
Module Tables3.
Record row : Type := mk
  { Year : Z;
    Winners : cell;
    Runners_up : cell;
    others : list (string * cell) }.
End Tables3.

(** A row of [df] once restricted to the three columns of line 20. *)
Module Df.
Record row : Type := mk
  { Year : Z;
    Winners : cell;
    Runners_up : cell }.
End Df.

(** A row of [win_totals]. *)
Module WinTotals.
Record row : Type := mk
  { Country : string;
    Wins : nat }.
End WinTotals.

(** A row of [iso] after the renaming of line 42. *)
Module Iso.
Record row : Type := mk
  { Country : string;
    GDP : string;
    ISO : string }.
End Iso.

(** A row of [pd.merge(iso, win_totals, ...)]: [Wins] is NaN ([None]) where
    the left row found no partner. *)
Module Joined.
Record row : Type := mk
  { Country : string;
    GDP : string;
    ISO : string;
    Wins : option nat }.
End Joined.

(** A row of [merged] after [fillna(0)]. *)
Module Merged.
Record row : Type := mk
  { Country : string;
    GDP : string;
    ISO : string;
    Wins : nat }.
End Merged.

(** ** Step 1: the cleaned finals table (lines 14-24) *)

(** Line 17: [df = df[df['Year'] != 2026]]. *)
Definition drop_2026 (t : list Tables3.row) : list Tables3.row :=
  filter (fun r => negb (Tables3.Year r =? 2026)%Z) t.

(** Line 20: [df[['Year', 'Winners', 'Runners-up']].copy()]. *)
Definition select_columns (t : list Tables3.row) : list Df.row :=
  map (fun r => Df.mk (Tables3.Year r) (Tables3.Winners r)
                      (Tables3.Runners_up r)) t.

(** [Series.replace({"West Germany": 'Germany'})] on one cell: a cell whose
    whole value is the key is replaced, any other cell is kept. *)
Definition replace_cell (c : cell) : cell :=
  match c with
  | Some s => if (s =? "West Germany")%string then Some "Germany" else Some s
  | None => None
  end.

(** Lines 23-24. *)
Definition normalise_germany (t : list Df.row) : list Df.row :=
  map (fun r => Df.mk (Df.Year r) (replace_cell (Df.Winners r))
                      (replace_cell (Df.Runners_up r))) t.

(** The value of [df] after line 24, from [tables[3]]. *)
Definition df (tables3 : list Tables3.row) : list Df.row :=
  normalise_germany (select_columns (drop_2026 tables3)).

(** ** Step 2: win totals (lines 37-38) *)

Module StringOrder <: TotalLeBool.
Definition t : Type := string.
Definition leb : t -> t -> bool := String.leb.
Lemma leb_total : forall a1 a2, leb a1 a2 = true \/ leb a2 a1 = true.
Proof. exact String.leb_total. Qed.
End StringOrder.

Module StringSort := Sort StringOrder.

(** The non-NaN values of a column ([groupby] has [dropna=True]). *)
Fixpoint dropna (col : list cell) : list string :=
  match col with
  | [] => []
  | Some s :: col' => s :: dropna col'
  | None :: col' => dropna col'
  end.

(** The group keys of [groupby(col)]: the distinct non-NaN values, sorted
    (strings compare character by character, as Python's do). *)
Definition group_keys (col : list cell) : list string :=
  StringSort.sort (nodup string_dec (dropna col)).

(** The size of the group of key [k]: the rows whose cell is [k]. *)
Definition group_size (col : list cell) (k : string) : nat :=
  count_occ cell_dec col (Some k).

(** Lines 37-38: [df.groupby('Winners').size().reset_index(name='Wins')],
    the key column renamed to [Country]. *)
Definition win_totals (d : list Df.row) : list WinTotals.row :=
  map (fun k => WinTotals.mk k (group_size (map Df.Winners d) k))
      (group_keys (map Df.Winners d)).

(** ** The join with the ISO codes (lines 45-46) *)

(** The partners of one left row in a left join on [Country]: every right
    row with the same key, or a single NaN when there is none. *)
Definition join_row (wt : list WinTotals.row) (i : Iso.row)
  : list Joined.row :=
  match filter (fun w => (WinTotals.Country w =? Iso.Country i)%string) wt with
  | [] => [Joined.mk (Iso.Country i) (Iso.GDP i) (Iso.ISO i) None]
  | ws => map (fun w => Joined.mk (Iso.Country i) (Iso.GDP i) (Iso.ISO i)
                                  (Some (WinTotals.Wins w))) ws
  end.

(** Line 45: [pd.merge(iso, win_totals, on='Country', how='left')]. *)
Definition merge_left (iso : list Iso.row) (wt : list WinTotals.row)
  : list Joined.row :=
  flat_map (join_row wt) iso.

(** Line 46: [merged['Wins'].fillna(0)]. *)
Definition fillna0 (j : list Joined.row) : list Merged.row :=
  map (fun r => Merged.mk (Joined.Country r) (Joined.GDP r) (Joined.ISO r)
                          (match Joined.Wins r with
                           | Some n => n
                           | None => 0
                           end)) j.

(** The value of [merged] after line 46. *)
Definition merged (iso : list Iso.row) (wt : list WinTotals.row)
  : list Merged.row :=
  fillna0 (merge_left iso wt).

(** Line 56: [merged['Wins'].max()], the upper end of the colour range;
    NaN ([None]) on an empty column. *)
Definition wins_max (m : list Merged.row) : option nat :=
  match map Merged.Wins m with
  | [] => None
  | w :: ws => Some (fold_left Nat.max ws w)
  end.

(** Line 56: [range_color = (0, merged['Wins'].max())]. *)
Definition range_color (m : list Merged.row) : nat * option nat :=
  (0, wins_max m).

(** ** The callbacks *)

(** The part of Plotly's click event the callback reads:
    [clickData['points'][i]['hovertext']]. *)
Record point : Type := mk_point { hovertext : string }.
Record click : Type := mk_click { points : list point }.

(** Line 161: [merged.loc[merged['Country'] == country, 'Wins'].values[0]]. *)
Definition wins_of (m : list Merged.row) (country : string) : result nat :=
  item0 (map Merged.Wins
             (filter (fun r => (Merged.Country r =? country)%string) m)).

(** Line 162: the message for a country and its win count. *)
Definition win_message (country : string) (wins : nat) : string :=
  country ++ " has won the World Cup " ++ str_of_int (Z.of_nat wins)
          ++ " time(s)".

(** Lines 156-162. *)
Definition display_win_count (m : list Merged.row) (clickData : option click)
  : result string :=
  match clickData with
  | None => Ok ""
  | Some cd =>
      match item0 (points cd) with
      | Raise e => Raise e
      | Ok p =>
          let country := hovertext p in
          match wins_of m country with
          | Raise e => Raise e
          | Ok wins => Ok (win_message country wins)
          end
      end
  end.

(** Line 175: [year in df['Year'].values]. *)
Definition year_in (d : list Df.row) (year : Z) : bool :=
  existsb (fun y => (y =? year)%Z) (map Df.Year d).

(** Line 177: [df[df['Year'] == year]]. *)
Definition rows_of_year (d : list Df.row) (year : Z) : list Df.row :=
  filter (fun r => (Df.Year r =? year)%Z) d.

Definition winner_message (year : Z) (winner : cell) : string :=
  "World Cup Winner in " ++ str_of_int year ++ ": " ++ str_of_cell winner.

Definition runner_up_message (year : Z) (runnerup : cell) : string :=
  "Runner up in " ++ str_of_int year ++ ": " ++ str_of_cell runnerup.

(** Lines 172-180.  The triple is (year-error, year-winner,
    year-runner-up). *)
Definition show_final_result (d : list Df.row) (year : option Z)
  : result (string * string * string) :=
  match year with
  | None => Ok ("", "", "")
  | Some y =>
      if negb (year_in d y) then Ok ("Invalid WC year", "", "")
      else
        match item0 (rows_of_year d y) with
        | Raise e => Raise e
        | Ok row =>
            Ok ("", winner_message y (Df.Winners row),
                    runner_up_message y (Df.Runners_up row))
        end
  end.

(** ** Sample tables *)

Definition sample_tables3 : list Tables3.row :=
  [ Tables3.mk 1954 (Some "West Germany") (Some "Hungary") [];
    Tables3.mk 1966 (Some "England") (Some "West Germany") [];
    Tables3.mk 2010 (Some "Spain") (Some "Netherlands") [];
    Tables3.mk 2014 (Some "Germany") (Some "Argentina") [];
    Tables3.mk 2022 (Some "Argentina") (Some "France") [];
    Tables3.mk 2026 None None [] ].

Definition sample_iso : list Iso.row :=
  [ Iso.mk "Argentina" "536.2" "ARG";
    Iso.mk "Canada" "1794" "CAN";
    Iso.mk "Germany" "3820" "DEU";
    Iso.mk "United Kingdom" "2848" "GBR" ].

Definition sample_df : list Df.row := df sample_tables3.

Definition sample_merged : list Merged.row :=
  merged sample_iso (win_totals sample_df).

(** A later table: the 2026 final played, the 2030 edition listed with
    empty result cells. *)
Definition later_tables3 : list Tables3.row :=
  [ Tables3.mk 2022 (Some "Argentina") (Some "France") [];
    Tables3.mk 2030 None None [] ].

(** ** Vocabulary of the specification *)

(** The sum of the [Wins] column of [win_totals]. *)
Definition total_wins (wt : list WinTotals.row) : nat :=
  list_sum (map WinTotals.Wins wt).

(** The WinTotal of a country, when there is one with exactly that name. *)
Definition win_total_of (wt : list WinTotals.row) (country : string)
  : option nat :=
  option_map WinTotals.Wins
    (find (fun w => (WinTotals.Country w =? country)%string) wt).

(** A row of the scraped table for an edition with no recorded result:
    its winner cell is empty. *)
Definition no_recorded_result (r : Tables3.row) : Prop :=
  Tables3.Winners r = None.

(** A row of [df] whose winner cell holds a name (is not NaN). *)
Definition has_winner (r : Df.row) : bool :=
  match Df.Winners r with
  | Some _ => true
  | None => false
  end.

(** What lines 20-24 make of one row of the scraped table. *)
Definition clean_row (r : Tables3.row) : Df.row :=
  Df.mk (Tables3.Year r) (replace_cell (Tables3.Winners r))
        (replace_cell (Tables3.Runners_up r)).

(** * Properties *)

(** ** Grouping *)

Section Groupby.

Variable col : list cell.

Lemma dropna_In (s : string) : In s (dropna col) <-> In (Some s) col.
Proof.
  induction col as [|[x|] col' IH]; simpl.
  - tauto.
  - rewrite IH. split; intros [H|H]; auto.
    + left; congruence.
    + left; congruence.
  - rewrite IH. split; [auto|intros [H|H]; [discriminate|auto]].
Qed.

Lemma group_keys_In (k : string) : In k (group_keys col) <-> In (Some k) col.
Proof.
  unfold group_keys. rewrite <- dropna_In.
  rewrite <- (nodup_In string_dec (dropna col) k).
  split; apply Permutation_in.
  - apply Permutation_sym, StringSort.Permuted_sort.
  - apply StringSort.Permuted_sort.
Qed.

Lemma group_keys_NoDup : NoDup (group_keys col).
Proof.
  unfold group_keys.
  eapply Permutation_NoDup; [apply StringSort.Permuted_sort|].
  apply NoDup_nodup.
Qed.

Lemma group_size_absent (k : string) :
  ~ In (Some k) col -> group_size col k = 0.
Proof. intro H. apply count_occ_not_In, H. Qed.

End Groupby.

(** Adding one row of key [s] to the table adds one to the sizes summed
    over any duplicate-free key list that holds [s]. *)
Lemma list_sum_bump (f : string -> nat) (s : string) (ks : list string) :
  NoDup ks -> In s ks ->
  list_sum (map (fun k => if cell_dec (Some s) (Some k) then S (f k) else f k)
                ks)
  = S (list_sum (map f ks)).
Proof.
  induction 1 as [|k ks Hk Hnd IH]; simpl; [tauto|].
  intros [->|Hin].
  - destruct (cell_dec (Some s) (Some s)) as [_|N]; [|congruence].
    simpl. do 3 f_equal.
    apply map_ext_in. intros k' Hk'.
    destruct (cell_dec (Some s) (Some k')) as [E|_]; [|reflexivity].
    injection E as ->. contradiction.
  - destruct (cell_dec (Some s) (Some k)) as [E|_].
    + injection E as ->. contradiction.
    + rewrite IH by assumption. lia.
Qed.

Lemma sum_group_sizes (col : list cell) (ks : list string) :
  NoDup ks -> (forall s, In (Some s) col -> In s ks) ->
  list_sum (map (group_size col) ks) = List.length (dropna col).
Proof.
  intros Hnd. unfold group_size.
  induction col as [|[x|] col' IH]; intros Hcov; simpl.
  - clear Hnd Hcov. induction ks as [|k ks IHk]; simpl; auto.
  - rewrite <- IH by (intros s Hs; apply Hcov; now right).
    apply list_sum_bump; [assumption|]. apply Hcov. now left.
  - rewrite <- IH by (intros s Hs; apply Hcov; now right).
    reflexivity.
Qed.

Lemma total_wins_dropna (d : list Df.row) :
  total_wins (win_totals d) = List.length (dropna (map Df.Winners d)).
Proof.
  unfold total_wins, win_totals. rewrite map_map. simpl.
  apply sum_group_sizes.
  - apply group_keys_NoDup.
  - intros s Hs. now apply group_keys_In.
Qed.

Lemma win_totals_keys (d : list Df.row) :
  map WinTotals.Country (win_totals d) = group_keys (map Df.Winners d).
Proof. unfold win_totals. rewrite map_map. simpl. apply map_id. Qed.

Lemma win_totals_In (d : list Df.row) (w : WinTotals.row) :
  In w (win_totals d) <->
  In (Some (WinTotals.Country w)) (map Df.Winners d) /\
  WinTotals.Wins w = group_size (map Df.Winners d) (WinTotals.Country w).
Proof.
  unfold win_totals. rewrite in_map_iff. split.
  - intros (k & <- & Hk). simpl. split; [now apply group_keys_In|reflexivity].
  - intros [Hk Hw]. exists (WinTotals.Country w). split.
    + destruct w as [c n]. simpl in *. now subst n.
    + now apply group_keys_In.
Qed.

(** ** The join *)

Lemma filter_none {A : Type} (f : A -> bool) (l : list A) :
  (forall x, In x l -> f x = false) -> filter f l = [].
Proof.
  induction l as [|a l' IH]; simpl; intros H; [reflexivity|].
  rewrite (H a) by now left. apply IH. intros x Hx. apply H. now right.
Qed.

Section Join.

Variable wt : list WinTotals.row.
Hypothesis wt_keys : NoDup (map WinTotals.Country wt).

(** With distinct keys on the right, a key selects at most one row: the one
    [find] returns. *)
Lemma partners_unique (c : string) :
  filter (fun w => (WinTotals.Country w =? c)%string) wt
  = match find (fun w => (WinTotals.Country w =? c)%string) wt with
    | Some w => [w]
    | None => []
    end.
Proof.
  induction wt as [|w wt' IH]; simpl; [reflexivity|].
  inversion wt_keys as [|k ks Hk Hnd]; subst.
  destruct (String.eqb_spec (WinTotals.Country w) c) as [E|N].
  - f_equal. apply filter_none.
    intros w' Hw'. apply String.eqb_neq. intros E'.
    apply Hk. rewrite E, <- E'. now apply in_map.
  - now apply IH.
Qed.

Lemma join_row_unique (i : Iso.row) :
  join_row wt i
  = [Joined.mk (Iso.Country i) (Iso.GDP i) (Iso.ISO i)
               (win_total_of wt (Iso.Country i))].
Proof.
  unfold join_row, win_total_of. rewrite partners_unique.
  now destruct (find _ wt).
Qed.

(** Every row of [iso] yields one row of [merged], in order. *)
Lemma merged_unique (iso : list Iso.row) :
  merged iso wt
  = map (fun i => Merged.mk (Iso.Country i) (Iso.GDP i) (Iso.ISO i)
                            (match win_total_of wt (Iso.Country i) with
                             | Some n => n
                             | None => 0
                             end)) iso.
Proof.
  unfold merged, merge_left.
  induction iso as [|i iso' IH]; simpl; [reflexivity|].
  rewrite join_row_unique. simpl. unfold fillna0 in *. simpl.
  now rewrite IH.
Qed.

End Join.

Lemma win_totals_NoDup (d : list Df.row) :
  NoDup (map WinTotals.Country (win_totals d)).
Proof. rewrite win_totals_keys. apply group_keys_NoDup. Qed.

(** The WinTotal of a country is the number of finals it won, when it won
    any. *)
Lemma win_total_of_win_totals (d : list Df.row) (c : string) :
  win_total_of (win_totals d) c
  = if in_dec cell_dec (Some c) (map Df.Winners d)
    then Some (group_size (map Df.Winners d) c)
    else None.
Proof.
  unfold win_total_of.
  destruct (find _ (win_totals d)) as [w|] eqn:F; simpl.
  - apply find_some in F as [Hin E]. apply String.eqb_eq in E. subst c.
    apply win_totals_In in Hin as [Hk Hw].
    destruct (in_dec _ _ _) as [_|N]; [congruence|contradiction].
  - destruct (in_dec _ _ _) as [Hin|_]; [exfalso|reflexivity].
    assert (E := find_none _ _ F
                   (WinTotals.mk c (group_size (map Df.Winners d) c))).
    simpl in E. rewrite String.eqb_refl in E.
    discriminate E. now apply win_totals_In.
Qed.

(** [merged] built from the code's own [win_totals]: each ISO row with the
    number of finals its country won. *)
Lemma merged_win_totals (iso : list Iso.row) (d : list Df.row) :
  merged iso (win_totals d)
  = map (fun i => Merged.mk (Iso.Country i) (Iso.GDP i) (Iso.ISO i)
                            (group_size (map Df.Winners d) (Iso.Country i)))
        iso.
Proof.
  rewrite (merged_unique _ (win_totals_NoDup d)).
  apply map_ext. intro i. f_equal.
  rewrite win_total_of_win_totals.
  destruct (in_dec _ _ _) as [_|N]; [reflexivity|].
  symmetry. now apply group_size_absent.
Qed.

(** ** The country lookup *)

(** The selection of line 161 is empty exactly when no row has the name. *)
Lemma wins_of_absent (m : list Merged.row) (c : string) :
  (forall e, In e m -> Merged.Country e <> c) ->
  wins_of m c = Raise IndexError.
Proof.
  intros H. unfold wins_of.
  replace (filter _ m) with (@nil Merged.row); [reflexivity|].
  symmetry. apply filter_none.
  intros e He. apply String.eqb_neq. now apply H.
Qed.

Lemma wins_of_present (m : list Merged.row) (c : string) (n : nat) :
  (exists e, In e m /\ Merged.Country e = c) ->
  (forall e, In e m -> Merged.Country e = c -> Merged.Wins e = n) ->
  wins_of m c = Ok n.
Proof.
  unfold wins_of. induction m as [|e m' IH]; simpl.
  - intros (e & [] & _).
  - intros Hex Hall.
    destruct (String.eqb_spec (Merged.Country e) c) as [E|N]; simpl.
    + f_equal. apply Hall; auto.
    + apply IH.
      * destruct Hex as (e' & [->|He'] & Ec); [contradiction|eauto].
      * intros e' He'. apply Hall. now right.
Qed.

(** ** The year lookup *)

Lemma year_in_spec (d : list Df.row) (y : Z) :
  year_in d y = true <-> In y (map Df.Year d).
Proof.
  unfold year_in. rewrite existsb_exists. split.
  - intros (x & Hx & E). apply Z.eqb_eq in E. now subst.
  - intros H. exists y. split; [assumption|apply Z.eqb_refl].
Qed.

(** The guard of line 175 makes the selection of line 177 non-empty. *)
Lemma rows_of_year_nonempty (d : list Df.row) (y : Z) :
  year_in d y = true -> rows_of_year d y <> [].
Proof.
  rewrite year_in_spec, in_map_iff. intros (r & E & Hr) Hnil.
  assert (Hin : In r (rows_of_year d y)).
  { apply filter_In. split; [assumption|]. now apply Z.eqb_eq. }
  rewrite Hnil in Hin. destruct Hin.
Qed.

Lemma NoDup_map_inj {A B : Type} (f : A -> B) (l : list A) (a b : A) :
  NoDup (map f l) -> In a l -> In b l -> f a = f b -> a = b.
Proof.
  induction l as [|x l' IH]; simpl; [tauto|].
  intros Hnd Ha Hb E. inversion Hnd as [|k ks Hk Hnd']; subst.
  destruct Ha as [->|Ha], Hb as [->|Hb]; auto.
  - exfalso. apply Hk. rewrite E. now apply in_map.
  - exfalso. apply Hk. rewrite <- E. now apply in_map.
Qed.

(** With distinct keys, [win_total_of] finds a count exactly when the table
    has the entry of that country with that count. *)
Lemma win_total_of_In (wt : list WinTotals.row) (c : string) (n : nat) :
  NoDup (map WinTotals.Country wt) ->
  win_total_of wt c = Some n <-> In (WinTotals.mk c n) wt.
Proof.
  intros Hnd. unfold win_total_of.
  destruct (find _ wt) as [w|] eqn:F; simpl; split.
  - intros [= <-]. apply find_some in F as [Hin E].
    apply String.eqb_eq in E. destruct w as [c' n']. simpl in E. now subst c'.
  - intros Hin. apply find_some in F as [Hw E]. apply String.eqb_eq in E.
    now rewrite (NoDup_map_inj WinTotals.Country wt w (WinTotals.mk c n)).
  - discriminate.
  - intros Hin. assert (E := find_none _ _ F _ Hin). simpl in E.
    now rewrite String.eqb_refl in E.
Qed.

Lemma find_year_first (d : list Df.row) (y : Z) (r : Df.row) :
  find (fun r' => (Df.Year r' =? y)%Z) d = Some r ->
  item0 (rows_of_year d y) = Ok r.
Proof.
  unfold rows_of_year. induction d as [|x d' IH]; simpl; [discriminate|].
  destruct (Df.Year x =? y)%Z; [now intros [= ->]|exact IH].
Qed.

Lemma find_year_some (d : list Df.row) (y : Z) :
  In y (map Df.Year d) ->
  exists r, find (fun r' => (Df.Year r' =? y)%Z) d = Some r.
Proof.
  induction d as [|x d' IH]; simpl; [tauto|].
  intros [E|Hin].
  - exists x. subst y. now rewrite Z.eqb_refl.
  - destruct (Df.Year x =? y)%Z; [now exists x|now apply IH].
Qed.

(** ** The cleaning *)

Lemma df_clean_rows (t : list Tables3.row) :
  df t = map clean_row (drop_2026 t).
Proof.
  unfold df, normalise_germany, select_columns. now rewrite map_map.
Qed.

Lemma count_occ_cell_cons (c k : cell) (col : list cell) :
  count_occ cell_dec (c :: col) k
  = (if cell_dec c k then 1 else 0) + count_occ cell_dec col k.
Proof. simpl. now destruct (cell_dec c k). Qed.

Lemma replace_cell_count_germany (col : list cell) :
  count_occ cell_dec (map replace_cell col) (Some "Germany")
  = count_occ cell_dec col (Some "West Germany")
    + count_occ cell_dec col (Some "Germany").
Proof.
  induction col as [|c col' IH]; [reflexivity|].
  cbn [map]. rewrite !count_occ_cell_cons, IH. clear IH.
  destruct c as [s|]; cbn [replace_cell].
  - destruct (String.eqb_spec s "West Germany") as [->|N].
    + repeat destruct (cell_dec _ _); try congruence; try discriminate; lia.
    + repeat destruct (cell_dec _ _); try congruence; lia.
  - repeat destruct (cell_dec _ _); try discriminate; lia.
Qed.

Lemma replace_cell_no_west_germany (col : list cell) :
  ~ In (Some "West Germany") (map replace_cell col).
Proof.
  rewrite in_map_iff. intros ([s|] & E & _); simpl in E; [|discriminate].
  destruct (String.eqb_spec s "West Germany"); [discriminate|congruence].
Qed.

Lemma df_winners (t : list Tables3.row) :
  map Df.Winners (df t)
  = map replace_cell (map Tables3.Winners (drop_2026 t)).
Proof. rewrite df_clean_rows, !map_map. reflexivity. Qed.

(** * The claims *)

(** ** Country lookup *)

(** C1, as the code has it: for a country name that matches no row of
    [merged], [display_win_count] returns no sentinel; the selection of
    line 161 is empty and reading its element 0 raises [IndexError]. *)
Theorem display_win_count_no_match
  (m : list Merged.row) (country : string) (ps : list point)
  (Hnone : forall e, In e m -> Merged.Country e <> country) :
  display_win_count m (Some (mk_click (mk_point country :: ps)))
  = Raise IndexError.
Proof.
  unfold display_win_count. simpl.
  now rewrite (wins_of_absent m country Hnone).
Qed.

Lemma display_win_count_no_match_witness :
  (forall e, In e sample_merged -> Merged.Country e <> "Atlantis") /\
  display_win_count sample_merged (Some (mk_click [mk_point "Atlantis"]))
  = Raise IndexError.
Proof.
  assert (H : forall e, In e sample_merged -> Merged.Country e <> "Atlantis").
  { vm_compute. intros e [<-|[<-|[<-|[<-|[]]]]]; discriminate. }
  split; [exact H|].
  exact (display_win_count_no_match sample_merged "Atlantis" [] H).
Defined.

(** C1 as stated fails: "Atlantis" matches no row of the sample [merged],
    and the callback returns no value at all, sentinel or other. *)
Lemma display_win_count_no_sentinel :
  (forall e, In e sample_merged -> Merged.Country e <> "Atlantis") /\
  ~ (exists sentinel : string,
        display_win_count sample_merged
          (Some (mk_click [mk_point "Atlantis"])) = Ok sentinel).
Proof.
  split.
  - vm_compute. intros e [<-|[<-|[<-|[<-|[]]]]]; discriminate.
  - intros [s Hs]. vm_compute in Hs. discriminate Hs.
Qed.

(** C9: a country of the ISO table that never won a final gets the message
    with the count 0, a value and not a failure. *)
Theorem display_win_count_zero_wins
  (iso : list Iso.row) (d : list Df.row) (i : Iso.row) (ps : list point)
  (Hiso : In i iso)
  (Hnever : forall r, In r d -> Df.Winners r <> Some (Iso.Country i)) :
  display_win_count (merged iso (win_totals d))
    (Some (mk_click (mk_point (Iso.Country i) :: ps)))
  = Ok (Iso.Country i ++ " has won the World Cup 0 time(s)").
Proof.
  unfold display_win_count. simpl.
  rewrite (wins_of_present _ (Iso.Country i) 0); [reflexivity| |].
  - rewrite merged_win_totals.
    eexists. split; [apply in_map, Hiso|reflexivity].
  - rewrite merged_win_totals. intros e He Ec.
    apply in_map_iff in He as (i' & <- & _). simpl in *. rewrite Ec.
    apply group_size_absent. rewrite in_map_iff.
    intros (r & Er & Hr). exact (Hnever r Hr Er).
Qed.

Lemma display_win_count_zero_wins_witness :
  display_win_count sample_merged (Some (mk_click [mk_point "Canada"]))
  = Ok "Canada has won the World Cup 0 time(s)".
Proof.
  apply (display_win_count_zero_wins sample_iso sample_df
           (Iso.mk "Canada" "1794" "CAN") []).
  - simpl. auto.
  - vm_compute. intros r [<-|[<-|[<-|[<-|[<-|[]]]]]]; discriminate.
Defined.

(** ** Year lookup *)

(** C3: a year that is given and is the year of no record yields the
    "Invalid WC year" message with empty winner and runner-up outputs. *)
Theorem show_final_result_invalid_year
  (d : list Df.row) (y : Z) (Hnot : ~ In y (map Df.Year d)) :
  show_final_result d (Some y) = Ok ("Invalid WC year", "", "").
Proof.
  unfold show_final_result.
  destruct (year_in d y) eqn:E; [|reflexivity].
  apply year_in_spec in E. contradiction.
Qed.

Lemma show_final_result_invalid_year_witness :
  ~ In 1942%Z (map Df.Year sample_df) /\
  show_final_result sample_df (Some 1942%Z) = Ok ("Invalid WC year", "", "").
Proof.
  assert (H : ~ In 1942%Z (map Df.Year sample_df)).
  { vm_compute. intros [H|[H|[H|[H|[H|[]]]]]]; discriminate H. }
  split; [exact H|].
  exact (show_final_result_invalid_year sample_df 1942 H).
Defined.

(** C4: a year that is the year of some record yields an empty error
    output and the winner and runner-up of the record of that year, the
    first one in table order, which is the only one when years are
    unique; for the 2014 record of Germany and Argentina the outputs name
    Germany and Argentina. *)
Theorem show_final_result_match
  (d : list Df.row) (y : Z) (Hyear : In y (map Df.Year d)) :
  exists r,
    In r d /\ Df.Year r = y /\
    find (fun r' => (Df.Year r' =? y)%Z) d = Some r /\
    (NoDup (map Df.Year d) -> forall r', In r' d -> Df.Year r' = y -> r' = r) /\
    show_final_result d (Some y)
    = Ok ("",
          "World Cup Winner in " ++ str_of_int y ++ ": "
            ++ str_of_cell (Df.Winners r),
          "Runner up in " ++ str_of_int y ++ ": "
            ++ str_of_cell (Df.Runners_up r)) /\
    (r = Df.mk 2014 (Some "Germany") (Some "Argentina") ->
     show_final_result d (Some y)
     = Ok ("", "World Cup Winner in 2014: Germany",
               "Runner up in 2014: Argentina")).
Proof.
  destruct (find_year_some d y Hyear) as [r F].
  assert (Hshow : show_final_result d (Some y)
                  = Ok ("", winner_message y (Df.Winners r),
                            runner_up_message y (Df.Runners_up r))).
  { unfold show_final_result.
    rewrite (proj2 (year_in_spec d y) Hyear). simpl.
    now rewrite (find_year_first d y r F). }
  destruct (find_some _ _ F) as [Hin E]. apply Z.eqb_eq in E.
  exists r. repeat split; try assumption.
  - intros Hnd r' Hr' Er'. apply (NoDup_map_inj Df.Year d); congruence.
  - intros ->. simpl in E. subst y. exact Hshow.
Qed.

Lemma show_final_result_match_witness :
  In 2014%Z (map Df.Year sample_df) /\
  show_final_result sample_df (Some 2014%Z)
  = Ok ("", "World Cup Winner in 2014: Germany",
            "Runner up in 2014: Argentina").
Proof.
  assert (H : In 2014%Z (map Df.Year sample_df)).
  { vm_compute. auto. }
  split; [exact H|].
  destruct (show_final_result_match sample_df 2014 H)
    as (r & _ & _ & F & _ & _ & Hgermany).
  apply Hgermany. vm_compute in F. now injection F as <-.
Defined.

(** C5: with no year given the three outputs are empty; this is a value,
    its error output is empty, and no given year produces the same
    triple, so it cannot be taken for an invalid-year answer. *)
Theorem show_final_result_absent (d : list Df.row) :
  show_final_result d None = Ok ("", "", "") /\
  (forall y, show_final_result d (Some y) <> show_final_result d None) /\
  show_final_result d None <> Ok ("Invalid WC year", "", "").
Proof.
  split; [reflexivity|]. split; [|discriminate].
  intros y. unfold show_final_result.
  destruct (negb (year_in d y)); [discriminate|].
  destruct (item0 (rows_of_year d y)); discriminate.
Qed.

(** C10: [show_final_result] returns a triple on every input, absent,
    matching or not; whenever the guard of line 175 lets a year through,
    the selection of line 177 has a first row for [iloc[0]]. *)
Theorem show_final_result_total (d : list Df.row) (year : option Z) :
  (exists t, show_final_result d year = Ok t) /\
  (forall y, year_in d y = false \/
             exists row, item0 (rows_of_year d y) = Ok row).
Proof.
  assert (G : forall y, year_in d y = false \/
                        exists row, item0 (rows_of_year d y) = Ok row).
  { intros y. destruct (year_in d y) eqn:E; [right|now left].
    apply rows_of_year_nonempty in E.
    destruct (rows_of_year d y) as [|row rest]; [contradiction|].
    now exists row. }
  split; [|exact G].
  destruct year as [y|]; simpl; [|eauto].
  destruct (G y) as [E|[row E]].
  - rewrite E. simpl. eauto.
  - destruct (year_in d y); simpl; [|eauto]. rewrite E. eauto.
Qed.

(** ** Normalizer, Aggregator, Geo-Joiner *)

(** C7, as the code has it: the rows dropped are those whose year is 2026,
    the one edition line 17 names; every other row is kept, with or
    without a result, and the step only drops rows. *)
Theorem df_drops_year_2026 (t : list Tables3.row) :
  ~ In 2026%Z (map Df.Year (df t)) /\
  (forall r, In r t -> Tables3.Year r <> 2026%Z -> In (clean_row r) (df t)) /\
  List.length (df t) + count_occ Z.eq_dec (map Tables3.Year t) 2026%Z
  = List.length t.
Proof.
  rewrite df_clean_rows. unfold drop_2026. repeat split.
  - rewrite map_map, in_map_iff. intros (r & E & Hr). simpl in E.
    apply filter_In in Hr as [_ Hr]. apply negb_true_iff, Z.eqb_neq in Hr.
    contradiction.
  - intros r Hr Hy. apply in_map, filter_In. split; [assumption|].
    now apply negb_true_iff, Z.eqb_neq.
  - rewrite length_map. induction t as [|r t' IH]; simpl; [reflexivity|].
    destruct (Z.eqb_spec (Tables3.Year r) 2026) as [E|N]; simpl.
    + destruct (Z.eq_dec _ _); [lia|contradiction].
    + destruct (Z.eq_dec _ _); [contradiction|lia].
Qed.

Lemma df_drops_year_2026_witness :
  In (Df.mk 2014 (Some "Germany") (Some "Argentina")) (df sample_tables3) /\
  ~ In 2026%Z (map Df.Year (df sample_tables3)).
Proof.
  destruct (df_drops_year_2026 sample_tables3) as (Hdrop & Hkeep & _).
  split; [|exact Hdrop].
  apply (Hkeep (Tables3.mk 2014 (Some "Germany") (Some "Argentina") [])).
  - simpl. auto 10.
  - simpl. discriminate.
Defined.

(** C7 as stated fails: the 2030 row of the later table has no recorded
    result, and [df] keeps it. *)
Lemma df_keeps_unplayed_2030 :
  In (Tables3.mk 2030 None None []) later_tables3 /\
  no_recorded_result (Tables3.mk 2030 None None []) /\
  In (Df.mk 2030 None None) (df later_tables3) /\
  List.length (df later_tables3) = List.length later_tables3.
Proof.
  repeat split; simpl; auto.
Qed.

(** C8: both name cells of every kept row go through the substitution,
    which turns "West Germany" into "Germany" and keeps any other cell;
    the win totals are taken from the substituted table, so they have no
    "West Germany" entry and the "Germany" entry counts the finals won
    under either name. *)
Theorem west_germany_counted_as_germany (t : list Tables3.row) :
  df t
  = map (fun r => Df.mk (Tables3.Year r) (replace_cell (Tables3.Winners r))
                        (replace_cell (Tables3.Runners_up r)))
        (drop_2026 t) /\
  replace_cell (Some "West Germany") = Some "Germany" /\
  (forall c, c <> Some "West Germany" -> replace_cell c = c) /\
  (forall n, ~ In (WinTotals.mk "West Germany" n) (win_totals (df t))) /\
  (forall w, In w (win_totals (df t)) -> WinTotals.Country w = "Germany" ->
     WinTotals.Wins w
     = count_occ cell_dec (map Tables3.Winners (drop_2026 t))
                 (Some "West Germany")
       + count_occ cell_dec (map Tables3.Winners (drop_2026 t))
                   (Some "Germany")) /\
  (In (Some "West Germany") (map Tables3.Winners (drop_2026 t)) \/
   In (Some "Germany") (map Tables3.Winners (drop_2026 t)) ->
   exists w, In w (win_totals (df t)) /\ WinTotals.Country w = "Germany").
Proof.
  split; [apply df_clean_rows|]. split; [reflexivity|].
  split; [|split; [|split]].
  - intros [s|] Hc; simpl; [|reflexivity].
    destruct (String.eqb_spec s "West Germany"); congruence.
  - intros n Hin. apply win_totals_In in Hin as [Hin _]. simpl in Hin.
    rewrite df_winners in Hin. exact (replace_cell_no_west_germany _ Hin).
  - intros w Hin Ec. apply win_totals_In in Hin as [_ ->]. rewrite Ec.
    unfold group_size. rewrite df_winners. apply replace_cell_count_germany.
  - intros H.
    exists (WinTotals.mk "Germany" (group_size (map Df.Winners (df t)) "Germany")).
    split; [|reflexivity]. apply win_totals_In. simpl. split; [|reflexivity].
    rewrite df_winners. apply (count_occ_In cell_dec).
    rewrite replace_cell_count_germany.
    destruct H as [H|H]; apply (count_occ_In cell_dec) in H; lia.
Qed.

Lemma west_germany_counted_as_germany_witness :
  In (WinTotals.mk "Germany" 2) (win_totals (df sample_tables3)) /\
  ~ In (WinTotals.mk "West Germany" 1) (win_totals (df sample_tables3)).
Proof.
  destruct (west_germany_counted_as_germany sample_tables3)
    as (_ & _ & _ & Hnone & Hcount & Hsome).
  split; [|apply Hnone].
  destruct Hsome as (w & Hin & Ec); [left; simpl; auto|].
  assert (Ew := Hcount w Hin Ec). vm_compute in Ew.
  destruct w as [c n]. simpl in Ec, Ew. now subst c n.
Defined.

Lemma dropna_winners_length (d : list Df.row) :
  List.length (dropna (map Df.Winners d)) = List.length (filter has_winner d).
Proof.
  unfold has_winner. induction d as [|r d' IH]; simpl; [reflexivity|].
  destruct (Df.Winners r); simpl; now rewrite IH.
Qed.

Lemma filter_keeps_all {A : Type} (f : A -> bool) (l : list A) :
  List.length (filter f l) = List.length l <-> Forall (fun x => f x = true) l.
Proof.
  induction l as [|a l' IH]; simpl.
  - split; [constructor|reflexivity].
  - assert (Hle := filter_length_le f l').
    destruct (f a) eqn:E; simpl; split.
    + intros H. constructor; [exact E|]. apply IH. lia.
    + intros H. inversion H; subst. f_equal. now apply IH.
    + intros H. lia.
    + intros H. inversion H; subst. congruence.
Qed.

(** C6, as the code has it: the win totals add up to the number of rows of
    [df] whose winner cell holds a name, since [groupby] forms no group
    for NaN; the sum is at most the number of rows, and it is the number
    of rows exactly when every row has a winner. *)
Theorem total_wins_counts_recorded_winners (d : list Df.row) :
  total_wins (win_totals d) = List.length (filter has_winner d) /\
  total_wins (win_totals d) <= List.length d /\
  (total_wins (win_totals d) = List.length d
   <-> Forall (fun r => Df.Winners r <> None) d).
Proof.
  rewrite total_wins_dropna, dropna_winners_length.
  split; [reflexivity|]. split; [apply filter_length_le|].
  rewrite filter_keeps_all. unfold has_winner.
  split; intros H; apply Forall_forall; intros r Hr;
    assert (Hr' := proj1 (Forall_forall _ _) H r Hr); simpl in Hr';
    destruct (Df.Winners r); congruence.
Qed.

(** C6 as stated fails: the cleaned later table has two rows, one of them
    the 2030 row without a winner, and its win totals add up to 1. *)
Lemma total_wins_misses_unplayed_2030 :
  List.length (df later_tables3) = 2 /\
  total_wins (win_totals (df later_tables3)) = 1 /\
  total_wins (win_totals (df later_tables3))
  <> List.length (df later_tables3).
Proof.
  split; [reflexivity|]. split; [reflexivity|].
  vm_compute. discriminate.
Qed.

(** C2: [merged] has one row per row of the ISO table, in the same order
    and with its country and code, and its wins are the WinTotal of
    exactly that country name when there is one, 0 otherwise. *)
Theorem merged_one_row_per_iso_row (iso : list Iso.row) (d : list Df.row) :
  List.length (merged iso (win_totals d)) = List.length iso /\
  Forall2 (fun i e =>
             Merged.Country e = Iso.Country i /\
             Merged.ISO e = Iso.ISO i /\
             Merged.Wins e
             = match win_total_of (win_totals d) (Iso.Country i) with
               | Some n => n
               | None => 0
               end)
          iso (merged iso (win_totals d)).
Proof.
  rewrite (merged_unique _ (win_totals_NoDup d)). split.
  - apply length_map.
  - induction iso as [|i iso' IH]; simpl; constructor; auto.
Qed.

(** * Further properties of the code *)

(** ** The click callback on the prepared table *)

Lemma wins_of_merged_win_totals
  (iso : list Iso.row) (d : list Df.row) (c : string) :
  In c (map Iso.Country iso) ->
  wins_of (merged iso (win_totals d)) c
  = Ok (count_occ cell_dec (map Df.Winners d) (Some c)).
Proof.
  intros Hc. apply in_map_iff in Hc as (i & Ei & Hi).
  apply wins_of_present; rewrite merged_win_totals.
  - exists (Merged.mk (Iso.Country i) (Iso.GDP i) (Iso.ISO i)
                      (group_size (map Df.Winners d) (Iso.Country i))).
    split; [|exact Ei].
    apply (in_map (fun i => Merged.mk (Iso.Country i) (Iso.GDP i) (Iso.ISO i)
                     (group_size (map Df.Winners d) (Iso.Country i)))), Hi.
  - intros e He Ec. apply in_map_iff in He as (i' & <- & _).
    simpl in *. now rewrite Ec.
Qed.

(** X1: a click on a country of the ISO table reports the number of rows
    of [df] whose winner is exactly that name. *)
Theorem display_win_count_reports_finals_won
  (iso : list Iso.row) (d : list Df.row) (c : string) (ps : list point)
  (Hc : In c (map Iso.Country iso)) :
  display_win_count (merged iso (win_totals d))
    (Some (mk_click (mk_point c :: ps)))
  = Ok (c ++ " has won the World Cup "
          ++ str_of_int (Z.of_nat (count_occ cell_dec (map Df.Winners d)
                                             (Some c)))
          ++ " time(s)").
Proof.
  unfold display_win_count. simpl.
  now rewrite (wins_of_merged_win_totals iso d c Hc).
Qed.

Lemma display_win_count_reports_finals_won_witness :
  In "Germany" (map Iso.Country sample_iso) /\
  display_win_count sample_merged (Some (mk_click [mk_point "Germany"]))
  = Ok "Germany has won the World Cup 2 time(s)".
Proof.
  assert (H : In "Germany" (map Iso.Country sample_iso)).
  { simpl. auto. }
  split; [exact H|].
  exact (display_win_count_reports_finals_won sample_iso sample_df
           "Germany" [] H).
Defined.

(** X2: on any [merged] table, a click whose hover text is the country of
    one of its rows is answered, with the wins of the first row of that
    country: the row no earlier row shares its country with. *)
Theorem display_win_count_answers_own_rows
  (m : list Merged.row) (e : Merged.row) (ps : list point)
  (He : In e m) :
  exists pre e' post,
    m = (pre ++ e' :: post)%list /\
    (forall x, In x pre -> Merged.Country x <> Merged.Country e) /\
    Merged.Country e' = Merged.Country e /\
    display_win_count m (Some (mk_click (mk_point (Merged.Country e) :: ps)))
    = Ok (win_message (Merged.Country e) (Merged.Wins e')).
Proof.
  unfold display_win_count, wins_of. simpl.
  induction m as [|x m' IH]; [destruct He|]. simpl.
  destruct (String.eqb_spec (Merged.Country x) (Merged.Country e)) as [E|N].
  - exists [], x, m'. simpl. repeat split; [intros y []|exact E].
  - destruct He as [->|He]; [contradiction|].
    destruct (IH He) as (pre & e' & post & Em & Hpre & Ec & Hres).
    exists (x :: pre), e', post. subst m'. repeat split; try assumption.
    intros y [<-|Hy]; [exact N|now apply Hpre].
Qed.

Lemma display_win_count_answers_own_rows_witness :
  exists pre e' post,
    [ Merged.mk "Canada" "1794" "CAN" 0;
      Merged.mk "Germany" "3820" "DEU" 2;
      Merged.mk "Germany" "0" "DDR" 7 ] = (pre ++ e' :: post)%list /\
    (forall x, In x pre -> Merged.Country x <> "Germany") /\
    Merged.Country e' = "Germany" /\
    display_win_count
      [ Merged.mk "Canada" "1794" "CAN" 0;
        Merged.mk "Germany" "3820" "DEU" 2;
        Merged.mk "Germany" "0" "DDR" 7 ]
      (Some (mk_click [mk_point "Germany"]))
    = Ok (win_message "Germany" (Merged.Wins e')).
Proof.
  apply (display_win_count_answers_own_rows
           [ Merged.mk "Canada" "1794" "CAN" 0;
             Merged.mk "Germany" "3820" "DEU" 2;
             Merged.mk "Germany" "0" "DDR" 7 ]
           (Merged.mk "Germany" "0" "DDR" 7) []).
  simpl. auto.
Defined.

Lemma win_message_not_empty (c : string) (n : nat) : win_message c n <> "".
Proof. unfold win_message. destruct c; discriminate. Qed.

(** X3: the callback returns the empty string only while nothing has been
    clicked: with click data it never returns it, and click data without
    a point raises [IndexError]. *)
Theorem display_win_count_empty_only_without_click (m : list Merged.row) :
  display_win_count m None = Ok "" /\
  (forall cd, display_win_count m (Some cd) <> Ok "") /\
  display_win_count m (Some (mk_click [])) = Raise IndexError.
Proof.
  split; [reflexivity|]. split; [|reflexivity].
  intros [[|p ps]]; unfold display_win_count; simpl; [discriminate|].
  destruct (wins_of m (hovertext p)); [|discriminate].
  intros [= H]. exact (win_message_not_empty _ _ H).
Qed.

(** ** The cleaning *)

Lemma replace_cell_idempotent (c : cell) :
  replace_cell (replace_cell c) = replace_cell c.
Proof.
  destruct c as [s|]; simpl; [|reflexivity].
  destruct (String.eqb_spec s "West Germany") as [E|N]; simpl.
  - reflexivity.
  - now rewrite (proj2 (String.eqb_neq s "West Germany") N).
Qed.

(** X4: the substitution of lines 23-24 can be applied again to its own
    output without changing it. *)
Theorem normalise_germany_idempotent (d : list Df.row) :
  normalise_germany (normalise_germany d) = normalise_germany d.
Proof.
  unfold normalise_germany. rewrite map_map. apply map_ext. intros r. simpl.
  now rewrite !replace_cell_idempotent.
Qed.

Lemma replace_cell_not_west_germany (c : cell) :
  replace_cell c <> Some "West Germany".
Proof.
  destruct c as [s|]; simpl; [|discriminate].
  destruct (String.eqb_spec s "West Germany"); [discriminate|congruence].
Qed.

(** X5: no row of the cleaned table names "West Germany", as winner or as
    runner-up. *)
Theorem df_never_names_west_germany
  (t : list Tables3.row) (r : Df.row) (Hr : In r (df t)) :
  Df.Winners r <> Some "West Germany" /\
  Df.Runners_up r <> Some "West Germany".
Proof.
  rewrite df_clean_rows in Hr. apply in_map_iff in Hr as (r0 & <- & _).
  split; apply replace_cell_not_west_germany.
Qed.

Lemma df_never_names_west_germany_witness :
  Df.Winners (Df.mk 1966 (Some "England") (Some "Germany"))
    <> Some "West Germany" /\
  Df.Runners_up (Df.mk 1966 (Some "England") (Some "Germany"))
    <> Some "West Germany".
Proof.
  apply (df_never_names_west_germany sample_tables3).
  vm_compute. auto.
Defined.

Lemma df_years (t : list Tables3.row) :
  map Df.Year (df t)
  = filter (fun y => negb (y =? 2026)%Z) (map Tables3.Year t).
Proof.
  rewrite df_clean_rows, map_map. unfold drop_2026. simpl.
  induction t as [|r t' IH]; simpl; [reflexivity|].
  destruct (Tables3.Year r =? 2026)%Z; simpl; now rewrite IH.
Qed.

(** X6: on the cleaned table the year 2026 is answered "Invalid WC year",
    whatever the scraped table holds for it. *)
Theorem show_final_result_2026_invalid (t : list Tables3.row) :
  show_final_result (df t) (Some 2026%Z) = Ok ("Invalid WC year", "", "").
Proof.
  unfold show_final_result.
  destruct (year_in (df t) 2026) eqn:E; [|reflexivity].
  apply year_in_spec in E. rewrite df_years in E.
  apply filter_In in E as [_ E]. discriminate E.
Qed.

(** X7: from the scraped table to the answer.  For a row of a year other
    than 2026 in a table with one row per year, the year is answered with
    the row's two names after the substitution. *)
Theorem show_final_result_on_scraped_row
  (t : list Tables3.row) (r : Tables3.row)
  (Hr : In r t) (Hyear : Tables3.Year r <> 2026%Z)
  (Huniq : NoDup (map Tables3.Year t)) :
  show_final_result (df t) (Some (Tables3.Year r))
  = Ok ("",
        "World Cup Winner in " ++ str_of_int (Tables3.Year r) ++ ": "
          ++ str_of_cell (replace_cell (Tables3.Winners r)),
        "Runner up in " ++ str_of_int (Tables3.Year r) ++ ": "
          ++ str_of_cell (replace_cell (Tables3.Runners_up r))).
Proof.
  assert (Hin : In (clean_row r) (df t)).
  { rewrite df_clean_rows. apply in_map, filter_In. split; [assumption|].
    now apply negb_true_iff, Z.eqb_neq. }
  assert (Hnd : NoDup (map Df.Year (df t))).
  { rewrite df_years. now apply NoDup_filter. }
  assert (Hy : In (Tables3.Year r) (map Df.Year (df t))).
  { apply in_map_iff. exists (clean_row r). now split. }
  destruct (find_year_some (df t) _ Hy) as [r' F].
  unfold show_final_result.
  rewrite (proj2 (year_in_spec _ _) Hy). simpl.
  rewrite (find_year_first _ _ _ F).
  apply find_some in F as [Hr' E]. apply Z.eqb_eq in E.
  rewrite (NoDup_map_inj Df.Year (df t) r' (clean_row r) Hnd Hr' Hin E).
  reflexivity.
Qed.

Lemma show_final_result_on_scraped_row_witness :
  show_final_result (df sample_tables3) (Some 1954%Z)
  = Ok ("", "World Cup Winner in 1954: Germany", "Runner up in 1954: Hungary").
Proof.
  apply (show_final_result_on_scraped_row sample_tables3
           (Tables3.mk 1954 (Some "West Germany") (Some "Hungary") [])).
  - simpl. auto.
  - simpl. discriminate.
  - simpl. repeat constructor; simpl; intuition discriminate.
Defined.

(** X8: a given year is answered with either the error message alone or
    the two result lines alone, never both and never neither. *)
Theorem show_final_result_error_or_result (d : list Df.row) (y : Z) :
  exists winner runnerup,
    (show_final_result d (Some y) = Ok ("Invalid WC year", "", "") /\
     ~ In y (map Df.Year d)) \/
    (show_final_result d (Some y) = Ok ("", winner, runnerup) /\
     winner <> "" /\ runnerup <> "" /\ In y (map Df.Year d)).
Proof.
  unfold show_final_result. destruct (year_in d y) eqn:E; simpl.
  - assert (Hy := proj1 (year_in_spec d y) E).
    destruct (find_year_some d y Hy) as [r F].
    rewrite (find_year_first d y r F).
    exists (winner_message y (Df.Winners r)),
           (runner_up_message y (Df.Runners_up r)).
    right. repeat split; try assumption; discriminate.
  - exists "", "". left. split; [reflexivity|].
    intros Hy. apply year_in_spec in Hy. congruence.
Qed.

(** ** The win totals *)

(** X9: [win_totals] lists its countries in ascending order, each once. *)
Theorem win_totals_sorted_distinct (d : list Df.row) :
  Sorted.Sorted (fun a b => String.leb a b = true)
                (map WinTotals.Country (win_totals d)) /\
  NoDup (map WinTotals.Country (win_totals d)).
Proof.
  rewrite win_totals_keys. split.
  - apply StringSort.Sorted_sort.
  - apply group_keys_NoDup.
Qed.

(** X10: the entries of [win_totals] are the winners of [df] and nobody
    else: every entry has at least one win and is the winner of some row,
    and every winner of a row has an entry.  A country that was only ever
    runner-up has none. *)
Theorem win_totals_exactly_the_winners (d : list Df.row) (c : string) :
  (forall n, In (WinTotals.mk c n) (win_totals d) ->
     1 <= n /\ n = count_occ cell_dec (map Df.Winners d) (Some c) /\
     exists r, In r d /\ Df.Winners r = Some c) /\
  (forall r, In r d -> Df.Winners r = Some c ->
     exists n, In (WinTotals.mk c n) (win_totals d)) /\
  ((forall r, In r d -> Df.Winners r <> Some c) ->
     forall n, ~ In (WinTotals.mk c n) (win_totals d)).
Proof.
  split; [|split].
  - intros n Hn. apply win_totals_In in Hn as [Hin En]. simpl in Hin, En.
    unfold group_size in En. split; [|split; [exact En|]].
    + apply (count_occ_In cell_dec) in Hin. lia.
    + apply in_map_iff in Hin as (r & E & Hr). now exists r.
  - intros r Hr E. exists (group_size (map Df.Winners d) c).
    apply win_totals_In. simpl. split; [|reflexivity].
    rewrite <- E. now apply in_map.
  - intros Hnone n Hin. apply win_totals_In in Hin as [Hin _]. simpl in Hin.
    apply in_map_iff in Hin as (r & E & Hr). exact (Hnone r Hr E).
Qed.

Lemma win_totals_exactly_the_winners_witness :
  In (WinTotals.mk "Spain" 1) (win_totals sample_df) /\
  ~ In (WinTotals.mk "Hungary" 1) (win_totals sample_df).
Proof.
  split.
  - destruct (win_totals_exactly_the_winners sample_df "Spain")
      as (Hentry & Hwinner & _).
    destruct (Hwinner (Df.mk 2010 (Some "Spain") (Some "Netherlands")))
      as [n Hn]; [vm_compute; auto|reflexivity|].
    destruct (Hentry n Hn) as (_ & En & _). vm_compute in En. now subst n.
  - destruct (win_totals_exactly_the_winners sample_df "Hungary")
      as (_ & _ & Hnone).
    apply Hnone. vm_compute.
    intros r [<-|[<-|[<-|[<-|[<-|[]]]]]]; discriminate.
Defined.

(** ** The join, for any right table *)


Lemma join_row_country (wt : list WinTotals.row) (i : Iso.row) (c : string) :
  In c (map Joined.Country (join_row wt i)) <-> c = Iso.Country i.
Proof.
  unfold join_row. destruct (filter _ wt) as [|w ws]; simpl.
  - split; [intros [H|[]]; auto|auto].
  - rewrite map_map. simpl. split.
    + intros [H|H]; [auto|]. apply in_map_iff in H as (x & E & _). auto.
    + auto.
Qed.

Lemma merged_countries (iso : list Iso.row) (wt : list WinTotals.row)
  (c : string) :
  In c (map Merged.Country (merged iso wt)) <-> In c (map Iso.Country iso).
Proof.
  unfold merged, fillna0, merge_left. rewrite map_map. simpl.
  change (fun x : Joined.row => Joined.Country x) with Joined.Country.
  induction iso as [|i iso' IH]; simpl; [tauto|].
  rewrite map_app, in_app_iff, join_row_country, IH.
  split; intros [H|H]; auto.
Qed.



(** ** Wins that reach the map *)

Lemma sum_group_sizes_listed (col : list cell) (ks : list string) :
  NoDup ks ->
  list_sum (map (group_size col) ks)
  = List.length (filter (fun s => existsb (String.eqb s) ks) (dropna col)).
Proof.
  intros Hnd. unfold group_size.
  induction col as [|[x|] col' IH]; simpl.
  - clear Hnd. induction ks as [|k ks' IHk]; simpl; auto.
  - destruct (existsb (String.eqb x) ks) eqn:E; simpl; rewrite <- IH.
    + apply list_sum_bump; [assumption|].
      apply existsb_exists in E as (k & Hk & Ek).
      apply String.eqb_eq in Ek. now subst.
    + f_equal. apply map_ext_in. intros k Hk.
      destruct (cell_dec (Some x) (Some k)) as [Ex|_]; [|reflexivity].
      injection Ex as ->.
      assert (T : existsb (String.eqb k) ks = true).
      { apply existsb_exists. exists k. split; [assumption|].
        apply String.eqb_refl. }
      congruence.
  - exact IH.
Qed.

(** X12: when the ISO table names each country once, the wins on the map
    add up to the number of finals whose winner is spelled exactly as a
    country of the ISO table; finals won under any other spelling are
    missing from the map, so the sum never exceeds the sum of the win
    totals. *)
Theorem merged_wins_are_the_matched_finals
  (iso : list Iso.row) (d : list Df.row)
  (Hiso : NoDup (map Iso.Country iso)) :
  list_sum (map Merged.Wins (merged iso (win_totals d)))
  = List.length
      (filter (fun s => existsb (String.eqb s) (map Iso.Country iso))
              (dropna (map Df.Winners d))) /\
  list_sum (map Merged.Wins (merged iso (win_totals d)))
  <= total_wins (win_totals d).
Proof.
  assert (E : list_sum (map Merged.Wins (merged iso (win_totals d)))
              = List.length
                  (filter (fun s => existsb (String.eqb s)
                                            (map Iso.Country iso))
                          (dropna (map Df.Winners d)))).
  { rewrite merged_win_totals, map_map. simpl.
    rewrite <- (sum_group_sizes_listed _ _ Hiso). now rewrite map_map. }
  split; [exact E|].
  rewrite E, total_wins_dropna. apply filter_length_le.
Qed.

Lemma merged_wins_are_the_matched_finals_witness :
  NoDup (map Iso.Country sample_iso) /\
  list_sum (map Merged.Wins sample_merged) = 3 /\
  total_wins (win_totals sample_df) = 5.
Proof.
  assert (H : NoDup (map Iso.Country sample_iso)).
  { simpl. repeat constructor; simpl; intuition discriminate. }
  split; [exact H|].
  destruct (merged_wins_are_the_matched_finals sample_iso sample_df H)
    as [E _].
  split; [|reflexivity].
  unfold sample_merged. rewrite E. reflexivity.
Defined.

(** ** The colour range *)

Lemma fold_max_largest (ws : list nat) (w : nat) :
  w <= fold_left Nat.max ws w /\
  Forall (fun x => x <= fold_left Nat.max ws w) ws /\
  In (fold_left Nat.max ws w) (w :: ws).
Proof.
  revert w. induction ws as [|x ws' IH]; intros w; simpl.
  - split; [lia|split; [constructor|now left]].
  - destruct (IH (Nat.max w x)) as (Hle & Hall & Hin). split; [|split].
    + lia.
    + constructor; [lia|exact Hall].
    + destruct Hin as [E|Hin]; [|auto].
      destruct (Nat.max_dec w x) as [M|M]; rewrite M in *; auto.
Qed.

(** X13: the upper end of the colour range is the largest win count on the
    map: it is NaN exactly when the ISO table is empty, and otherwise it
    bounds the wins of every row, is the wins of some row, and is at most
    the number of rows of [df]. *)
Theorem range_color_spans_wins (iso : list Iso.row) (d : list Df.row) :
  (iso = [] <-> range_color (merged iso (win_totals d)) = (0, None)) /\
  (forall n, range_color (merged iso (win_totals d)) = (0, Some n) ->
     (forall e, In e (merged iso (win_totals d)) -> Merged.Wins e <= n) /\
     (exists e, In e (merged iso (win_totals d)) /\ Merged.Wins e = n) /\
     n <= List.length d).
Proof.
  unfold range_color, wins_max. split.
  - rewrite merged_win_totals. destruct iso; simpl; split;
      try reflexivity; discriminate.
  - intros n Hn.
    destruct (map Merged.Wins (merged iso (win_totals d)))
      as [|w ws] eqn:Em; [discriminate|].
    injection Hn as <-.
    destruct (fold_max_largest ws w) as (Hle & Hall & Hin).
    assert (Hbound : forall x, In x (w :: ws) ->
                               x <= fold_left Nat.max ws w).
    { intros x [<-|Hx]; [exact Hle|].
      exact (proj1 (Forall_forall _ _) Hall x Hx). }
    rewrite <- Em in Hbound, Hin. split; [|split].
    + intros e He. apply Hbound. now apply in_map.
    + apply in_map_iff in Hin as (e & E & He). now exists e.
    + rewrite merged_win_totals, map_map in Hin. simpl in Hin.
      apply in_map_iff in Hin as (i & <- & _).
      unfold group_size.
      rewrite <- (length_map Df.Winners d). apply count_occ_bound.
Qed.

Lemma range_color_spans_wins_witness :
  range_color sample_merged = (0, Some 2) /\
  (forall e, In e sample_merged -> Merged.Wins e <= 2).
Proof.
  split; [reflexivity|].
  apply (proj2 (range_color_spans_wins sample_iso sample_df) 2).
  reflexivity.
Defined.

(** ** Germany, from the scraped table to the click *)

(** X14: when the ISO table lists "Germany", a click on it reports the
    finals of the kept rows won as "West Germany" plus those won as
    "Germany". *)
Theorem display_win_count_germany
  (iso : list Iso.row) (t : list Tables3.row) (ps : list point)
  (Hiso : In "Germany" (map Iso.Country iso)) :
  display_win_count (merged iso (win_totals (df t)))
    (Some (mk_click (mk_point "Germany" :: ps)))
  = Ok ("Germany has won the World Cup "
          ++ str_of_int
               (Z.of_nat
                  (count_occ cell_dec (map Tables3.Winners (drop_2026 t))
                             (Some "West Germany")
                   + count_occ cell_dec (map Tables3.Winners (drop_2026 t))
                               (Some "Germany")))
          ++ " time(s)").
Proof.
  unfold display_win_count. simpl.
  rewrite (wins_of_merged_win_totals iso (df t) "Germany" Hiso).
  now rewrite df_winners, replace_cell_count_germany.
Qed.

Lemma display_win_count_germany_witness :
  display_win_count (merged sample_iso (win_totals (df sample_tables3)))
    (Some (mk_click [mk_point "Germany"]))
  = Ok "Germany has won the World Cup 2 time(s)".
Proof.
  apply (display_win_count_germany sample_iso sample_tables3 []).
  simpl. auto.
Defined.

(** ** Row order *)

Lemma string_compare_le_trans (a b c : string) :
  String.compare a b <> Gt -> String.compare b c <> Gt ->
  String.compare a c <> Gt.
Proof.
  revert b c. induction a as [|x a' IH]; intros [|y b'] [|z c']; simpl;
    try congruence; try discriminate.
  unfold Ascii.compare.
  destruct (N.compare_spec (N_of_ascii x) (N_of_ascii y)) as [E1|L1|G1],
           (N.compare_spec (N_of_ascii y) (N_of_ascii z)) as [E2|L2|G2],
           (N.compare_spec (N_of_ascii x) (N_of_ascii z)) as [E3|L3|G3];
    try congruence; try discriminate; try lia; try apply IH.
Qed.

Lemma string_leb_trans (a b c : string) :
  String.leb a b = true -> String.leb b c = true -> String.leb a c = true.
Proof.
  unfold String.leb. intros H1 H2.
  assert (H := string_compare_le_trans a b c).
  destruct (String.compare a b), (String.compare b c), (String.compare a c);
    try reflexivity; try congruence; exfalso; apply H; congruence.
Qed.

(** Two ascending lists of strings with the same elements are equal. *)
Lemma ascending_unique (l l' : list string) :
  StronglySorted (fun a b => String.leb a b = true) l ->
  StronglySorted (fun a b => String.leb a b = true) l' ->
  Permutation l l' -> l = l'.
Proof.
  revert l'. induction l as [|a l1 IH]; intros l' Hs Hs' Hp.
  - now apply Permutation_nil in Hp.
  - destruct l' as [|b l2].
    + apply Permutation_sym, Permutation_nil in Hp. discriminate.
    + apply StronglySorted_inv in Hs as [Hs1 Ha].
      apply StronglySorted_inv in Hs' as [Hs2 Hb].
      assert (E : a = b).
      { assert (Hab : In a (b :: l2)).
        { apply (Permutation_in _ Hp). now left. }
        assert (Hba : In b (a :: l1)).
        { apply (Permutation_in _ (Permutation_sym Hp)). now left. }
        destruct Hab as [->|Hab]; [reflexivity|].
        destruct Hba as [->|Hba]; [reflexivity|].
        apply String.leb_antisym.
        - exact (proj1 (Forall_forall _ _) Ha b Hba).
        - exact (proj1 (Forall_forall _ _) Hb a Hab). }
      subst b. f_equal. apply IH; try assumption.
      now apply Permutation_cons_inv in Hp.
Qed.

Lemma group_keys_ascending (col : list cell) :
  StronglySorted (fun a b => String.leb a b = true) (group_keys col).
Proof.
  apply Sorted_StronglySorted.
  - intros a b c. apply string_leb_trans.
  - apply StringSort.Sorted_sort.
Qed.

Lemma group_keys_permutation (col col' : list cell) :
  Permutation col col' -> group_keys col = group_keys col'.
Proof.
  intros Hp. apply ascending_unique; try apply group_keys_ascending.
  apply NoDup_Permutation; try apply group_keys_NoDup.
  intros k. rewrite !group_keys_In.
  split; apply Permutation_in; [assumption|now apply Permutation_sym].
Qed.

(** X15: the win totals, and with them the merged table, do not depend on
    the order of the rows of [df]. *)
Theorem win_totals_row_order
  (d d' : list Df.row) (Hperm : Permutation d d') :
  win_totals d = win_totals d' /\
  forall iso, merged iso (win_totals d) = merged iso (win_totals d').
Proof.
  assert (E : win_totals d = win_totals d').
  { unfold win_totals.
    assert (Hcol : Permutation (map Df.Winners d) (map Df.Winners d')).
    { now apply Permutation_map. }
    rewrite (group_keys_permutation _ _ Hcol).
    apply map_ext. intros k. f_equal. unfold group_size.
    now apply Permutation_count_occ. }
  split; [exact E|]. intros iso. now rewrite E.
Qed.

Lemma win_totals_row_order_witness :
  win_totals (List.rev sample_df) = win_totals sample_df.
Proof.
  apply (win_totals_row_order (List.rev sample_df) sample_df).
  apply Permutation_sym, Permutation_rev.
Defined.

(** ** Which clicks are answered *)

Lemma wins_of_defined (m : list Merged.row) (c : string) :
  (exists n, wins_of m c = Ok n) <-> In c (map Merged.Country m).
Proof.
  unfold wins_of. induction m as [|e m' IH]; simpl.
  - split; [intros [n H]; discriminate H|tauto].
  - destruct (String.eqb_spec (Merged.Country e) c) as [E|N]; simpl.
    + split; [auto|]. intros _. now exists (Merged.Wins e).
    + rewrite IH. split; [auto|]. intros [H|H]; [contradiction|exact H].
Qed.

(** X16: whatever the win totals are, a click is answered exactly when its
    hover text is a country of the ISO table; a winner that the ISO table
    does not list cannot be looked up. *)
Theorem display_win_count_answers_iso_countries
  (iso : list Iso.row) (wt : list WinTotals.row) (c : string)
  (ps : list point) :
  (exists s, display_win_count (merged iso wt)
               (Some (mk_click (mk_point c :: ps))) = Ok s)
  <-> In c (map Iso.Country iso).
Proof.
  rewrite <- (merged_countries iso wt c), <- wins_of_defined.
  unfold display_win_count. simpl. split.
  - intros [s H]. destruct (wins_of (merged iso wt) c) as [n|e].
    + now exists n.
    + discriminate H.
  - intros [n H]. rewrite H. eauto.
Qed.
